(** * Post-install diagnostics of the NativeScript / AppBuilder CLI

    A shallow embedding of [PostInstallCommand] (file
    [src/services/analytics-type.ts]): the two warning procedures
    [printNSWarnings] and [printAppBuilderWarnings], the helper
    [printPackageManagerTip] and the dispatch done by [execute], together
    with the properties the specification states about the sequence of
    warnings and tips they produce. *)

From Stdlib Require Import String Ascii List Bool Arith Lia.
From stdpp Require Import base tactics option list strings.

Local Open Scope string_scope.
Local Open Scope list_scope.

(** ** Ambient modules used by the command *)

(** Modelled from the spec: the [host-info] module of the repository is not
    part of the sources at hand.  The specification classifies the host as
    one of [Windows], [Darwin] or [Other]; [isWindows] and [isDarwin] are the
    two queries the command makes. *)
Module hostInfo.

Inductive Platform : Type := Windows | Darwin | Other.

Definition isWindows (p : Platform) : bool :=
  match p with Windows => true | _ => false end.

Definition isDarwin (p : Platform) : bool :=
  match p with Darwin => true | _ => false end.

#[global] Instance Platform_eq_dec : EqDecision Platform.
Proof. solve_decision. Defined.

End hostInfo.
Export hostInfo.

(** Node's [os.EOL]: carriage return and line feed on Windows, a single
    line feed on every other host. *)
Module os.

Definition LF : string := String (ascii_of_nat 10) EmptyString.
Definition CRLF : string := String (ascii_of_nat 13) LF.

Definition EOL (p : Platform) : string :=
  match p with Windows => CRLF | _ => LF end.

End os.

(** ** System information

    [ISysInfoData] as the command reads it.  A version field is a string or
    [null]; JavaScript's [!x] holds of [null] and of the empty string. *)

Record ISysInfoData : Type := {
  adbVer : option string;
  antVer : option string;
  androidInstalled : bool;
  xcodeVer : option string;
  itunesInstalled : bool;
  javaVer : option string
}.

Definition toBoolean (v : option string) : bool :=
  match v with
  | None => false
  | Some s => negb (String.eqb s "")
  end.

(** ** The logger

    [$logger.warn] and [$logger.out] append one entry each to the log; the
    procedures are written in a small state monad over the log. *)

Inductive LogEntry : Type :=
  | LogWarn (msg : string)
  | LogOut (msg : string).

#[global] Instance LogEntry_eq_dec : EqDecision LogEntry.
Proof. solve_decision. Defined.

Module Logger.

Definition M (A : Type) : Type := list LogEntry -> A * list LogEntry.

Definition ret {A} (a : A) : M A := fun log => (a, log).

Definition bind {A B} (c : M A) (k : A -> M B) : M B :=
  fun log => let (a, log') := c log in k a log'.

Definition warn (msg : string) : M unit := fun log => (tt, log ++ [LogWarn msg]).

Definition out (msg : string) : M unit := fun log => (tt, log ++ [LogOut msg]).

(** [if (b) { c }] without an [else] branch. *)
Definition when (b : bool) (c : M unit) : M unit :=
  if b then c else ret tt.

Definition exec {A} (c : M A) (log : list LogEntry) : list LogEntry := snd (c log).

End Logger.

(** The log monad is an instance of stdpp's monad interface, which
    provides the sequencing notation [c1 ;; c2]. *)
#[global] Instance logger_ret : MRet Logger.M := @Logger.ret.
#[global] Instance logger_bind : MBind Logger.M :=
  fun A B k c => Logger.bind c k.

(** ** Message texts, literal by literal *)

Module Messages.

(* lines 84-88 *)
Definition NS_ADB_HEADLINE : string :=
  "WARNING: adb from the Android SDK is not installed or is not configured properly.".
Definition NS_ADB_DETAIL (EOL : string) : string :=
  "For Android-related operations, the NativeScript CLI will use a built-in version of adb." +:+ EOL
  +:+ "To avoid possible issues with the native Android emulator, Genymotion or connected" +:+ EOL
  +:+ "Android devices, verify that you have installed the latest Android SDK and" +:+ EOL
  +:+ "its dependencies as described in http://developer.android.com/sdk/index.html#Requirements" +:+ EOL.
(* lines 93-96 *)
Definition NS_ANT_HEADLINE : string :=
  "WARNING: Apache Ant is not installed or is not configured properly.".
Definition NS_ANT_DETAIL (EOL : string) : string :=
  "You will not be able to build your projects for Android." +:+ EOL
  +:+ "To be able to build for Android, download and install Apache Ant and" +:+ EOL
  +:+ "its dependencies as described in http://ant.apache.org/manual/index.html" +:+ EOL.
(* lines 101-104 *)
Definition NS_ANDROID_HEADLINE : string :=
  "WARNING: The Android SDK is not installed or is not configured properly.".
Definition NS_ANDROID_DETAIL (EOL : string) : string :=
  "You will not be able to build your projects for Android and run them in the native emulator." +:+ EOL
  +:+ "To be able to build for Android and run apps in the native emulator, verify that you have" +:+ EOL
  +:+ "installed the latest Android SDK and its dependencies as described in http://developer.android.com/sdk/index.html#Requirements" +:+ EOL.
(* lines 110-112 *)
Definition NS_XCODE_HEADLINE : string :=
  "WARNING: Xcode is not installed or is not configured properly.".
Definition NS_XCODE_DETAIL (EOL : string) : string :=
  "You will not be able to build your projects for iOS or run them in the iOS Simulator." +:+ EOL
  +:+ "To be able to build for iOS and run apps in the native emulator, verify that you have installed Xcode." +:+ EOL.
(* lines 115-118 *)
Definition NS_ITUNES_HEADLINE : string :=
  "WARNING: iTunes is not installed.".
Definition NS_ITUNES_DETAIL (EOL : string) : string :=
  "You will not be able to work with iOS devices via cable connection." +:+ EOL
  +:+ "To be able to work with connected iOS devices," +:+ EOL
  +:+ "download and install iTunes from http://www.apple.com" +:+ EOL.
(* lines 121-126 *)
Definition NS_JAVA_HEADLINE : string :=
  "WARNING: The Java Development Kit (JDK) is not installed or is not configured properly.".
Definition NS_JAVA_DETAIL (EOL : string) : string :=
  "You will not be able to work with the Android SDK and you might not be able" +:+ EOL
  +:+ "to perform some Android-related operations. To ensure that you can develop and" +:+ EOL
  +:+ "test your apps for Android, verify that you have installed the JDK as" +:+ EOL
  +:+ "described in http://docs.oracle.com/javase/8/docs/technotes/guides/install/install_overview.html (for JDK 8)" +:+ EOL
  +:+ "or http://docs.oracle.com/javase/7/docs/webnotes/install/ (for JDK 7)." +:+ EOL.
(* lines 132-136 *)
Definition AB_ADB_HEADLINE : string :=
  "WARNING: adb from the Android SDK is not installed or is not configured properly. ".
Definition AB_ADB_DETAIL (EOL : string) : string :=
  "For Android-related operations, the AppBuilder CLI will use a built-in version of adb." +:+ EOL
  +:+ "To avoid possible issues with the native Android emulator, Genymotion or connected" +:+ EOL
  +:+ "Android devices, verify that you have installed the latest Android SDK and" +:+ EOL
  +:+ "its dependencies as described in http://developer.android.com/sdk/index.html#Requirements" +:+ EOL.
(* lines 141-144 *)
Definition AB_ANDROID_HEADLINE : string :=
  "WARNING: The Android SDK is not installed or is not configured properly.".
Definition AB_ANDROID_DETAIL (EOL : string) : string :=
  "You will not be able to run your apps in the native emulator. To be able to run apps" +:+ EOL
  +:+ "in the native Android emulator, verify that you have installed the latest Android SDK " +:+ EOL
  +:+ "and its dependencies as described in http://developer.android.com/sdk/index.html#Requirements" +:+ EOL.
(* lines 150-153 *)
Definition AB_ITUNES_HEADLINE : string :=
  "WARNING: iTunes is not installed.".
Definition AB_ITUNES_DETAIL (EOL : string) : string :=
  "You will not be able to work with iOS devices via cable connection." +:+ EOL
  +:+ "To be able to work with connected iOS devices," +:+ EOL
  +:+ "download and install iTunes from http://www.apple.com" +:+ EOL.
(* lines 156-161 *)
Definition AB_JAVA_HEADLINE : string :=
  "WARNING: The Java Development Kit (JDK) is not installed or is not configured properly.".
Definition AB_JAVA_DETAIL (EOL : string) : string :=
  "You will not be able to work with the Android SDK and you might not be able" +:+ EOL
  +:+ "to perform some Android-related operations. To ensure that you can develop and" +:+ EOL
  +:+ "test your apps for Android, verify that you have installed the JDK as" +:+ EOL
  +:+ "described in http://docs.oracle.com/javase/8/docs/technotes/guides/install/install_overview.html (for JDK 8)" +:+ EOL
  +:+ "or http://docs.oracle.com/javase/7/docs/webnotes/install/ (for JDK 7)." +:+ EOL.
(* line 76 *)
Definition TIP_WINDOWS (EOL : string) : string :=
  "TIP: To avoid setting up the necessary environment variables, you can use the chocolatey package manager to install the Android SDK and its dependencies." +:+ EOL.
(* line 78 *)
Definition TIP_DARWIN (EOL : string) : string :=
  "TIP: To avoid setting up the necessary environment variables, you can use the Homebrew package manager to install the Android SDK and its dependencies." +:+ EOL.

End Messages.
Import Messages.

(** ** The command *)

Inductive Persona : Type := PrimaryProduct | LegacyProduct.

#[global] Instance Persona_eq_dec : EqDecision Persona.
Proof. solve_decision. Defined.

Section PostInstallCommand.

(** The host the command runs on: what [hostInfo] and [os] answer. *)
Variable host : Platform.

Definition printPackageManagerTip : Logger.M unit :=
  if isWindows host then
    Logger.out (TIP_WINDOWS (os.EOL host))
  else if isDarwin host then
    Logger.out (TIP_DARWIN (os.EOL host))
  else Logger.ret tt.

Definition printNSWarnings (sysInfo : ISysInfoData) : Logger.M unit :=
  Logger.when (negb (toBoolean (adbVer sysInfo))) (
    Logger.warn NS_ADB_HEADLINE ;;
    Logger.out (NS_ADB_DETAIL (os.EOL host)) ;;
    printPackageManagerTip) ;;
  Logger.when (negb (toBoolean (antVer sysInfo))) (
    Logger.warn NS_ANT_HEADLINE ;;
    Logger.out (NS_ANT_DETAIL (os.EOL host)) ;;
    printPackageManagerTip) ;;
  Logger.when (negb (androidInstalled sysInfo)) (
    Logger.warn NS_ANDROID_HEADLINE ;;
    Logger.out (NS_ANDROID_DETAIL (os.EOL host)) ;;
    printPackageManagerTip) ;;
  Logger.when (isDarwin host && negb (toBoolean (xcodeVer sysInfo))) (
    Logger.warn NS_XCODE_HEADLINE ;;
    Logger.out (NS_XCODE_DETAIL (os.EOL host))) ;;
  Logger.when (negb (itunesInstalled sysInfo)) (
    Logger.warn NS_ITUNES_HEADLINE ;;
    Logger.out (NS_ITUNES_DETAIL (os.EOL host))) ;;
  Logger.when (negb (toBoolean (javaVer sysInfo))) (
    Logger.warn NS_JAVA_HEADLINE ;;
    Logger.out (NS_JAVA_DETAIL (os.EOL host))).

Definition printAppBuilderWarnings (sysInfo : ISysInfoData) : Logger.M unit :=
  Logger.when (negb (toBoolean (adbVer sysInfo))) (
    Logger.warn AB_ADB_HEADLINE ;;
    Logger.out (AB_ADB_DETAIL (os.EOL host)) ;;
    printPackageManagerTip) ;;
  Logger.when (negb (androidInstalled sysInfo)) (
    Logger.warn AB_ANDROID_HEADLINE ;;
    Logger.out (AB_ANDROID_DETAIL (os.EOL host)) ;;
    printPackageManagerTip) ;;
  Logger.when (negb (itunesInstalled sysInfo)) (
    Logger.warn AB_ITUNES_HEADLINE ;;
    Logger.out (AB_ITUNES_DETAIL (os.EOL host))) ;;
  Logger.when (negb (toBoolean (javaVer sysInfo))) (
    Logger.warn AB_JAVA_HEADLINE ;;
    Logger.out (AB_JAVA_DETAIL (os.EOL host))).

(** The part of [execute] that prints the warnings: [CLIENT_NAME] of the
    static configuration selects the procedure. *)
Definition execute (CLIENT_NAME : string) (sysInfo : ISysInfoData) : Logger.M unit :=
  let isNativeScript := String.eqb CLIENT_NAME "tns" in
  if isNativeScript then printNSWarnings sysInfo
  else printAppBuilderWarnings sysInfo.

End PostInstallCommand.

(** ** The composer: what the presentation layer receives

    Each warning block of the command is a [warn] of the headline followed
    by an [out] of the remediation text; a package-manager tip is an [out]
    on its own.  [items] reads the log back as that sequence. *)

Inductive Item : Type :=
  | Warning (headline detail : string)
  | Tip (text : string).

#[global] Instance Item_eq_dec : EqDecision Item.
Proof. solve_decision. Defined.

Fixpoint items (log : list LogEntry) : list Item :=
  match log with
  | [] => []
  | LogWarn h :: rest =>
      match rest with
      | LogOut d :: rest' => Warning h d :: items rest'
      | _ => Warning h "" :: items rest
      end
  | LogOut t :: rest => Tip t :: items rest
  end.

(** [compose] runs the procedure of the persona on an empty log. *)
Definition compose (snapshot : ISysInfoData) (persona : Persona)
    (platform : Platform) : list Item :=
  items (Logger.exec
    (match persona with
     | PrimaryProduct => printNSWarnings platform snapshot
     | LegacyProduct => printAppBuilderWarnings platform snapshot
     end) []).

(** The persona a client name stands for, as [execute] decides it. *)
Definition personaOf (CLIENT_NAME : string) : Persona :=
  if String.eqb CLIENT_NAME "tns" then PrimaryProduct else LegacyProduct.

(** A capability is absent when the command's test [!x] succeeds. *)
Definition absent (v : option string) : Prop := toBoolean v = false.

#[global] Instance absent_dec v : Decision (absent v).
Proof. unfold absent. apply _. Defined.

(** ** Rules and the observations the properties are stated with *)

Inductive Rule : Type := Adb | Ant | AndroidSdk | Xcode | ITunes | Java.

#[global] Instance Rule_eq_dec : EqDecision Rule.
Proof. solve_decision. Defined.

Definition ruleIndex (r : Rule) : nat :=
  match r with
  | Adb => 1 | Ant => 2 | AndroidSdk => 3 | Xcode => 4 | ITunes => 5 | Java => 6
  end.

Definition allRules : list Rule := [Adb; Ant; AndroidSdk; Xcode; ITunes; Java].

(** The headlines each rule is recognised by, in either product. *)
Definition headlines (r : Rule) : list string :=
  match r with
  | Adb => [NS_ADB_HEADLINE; AB_ADB_HEADLINE]
  | Ant => [NS_ANT_HEADLINE]
  | AndroidSdk => [NS_ANDROID_HEADLINE; AB_ANDROID_HEADLINE]
  | Xcode => [NS_XCODE_HEADLINE]
  | ITunes => [NS_ITUNES_HEADLINE; AB_ITUNES_HEADLINE]
  | Java => [NS_JAVA_HEADLINE; AB_JAVA_HEADLINE]
  end.

Definition ruleOf (it : Item) : option Rule :=
  match it with
  | Warning h _ => find (fun r => existsb (String.eqb h) (headlines r)) allRules
  | Tip _ => None
  end.

Definition isTip (it : Item) : bool :=
  match it with Tip _ => true | Warning _ _ => false end.

(** [emits r out]: some warning of rule [r] occurs in [out]. *)
Definition emits (r : Rule) (out : list Item) : bool :=
  existsb (fun it => bool_decide (ruleOf it = Some r)) out.

(** [tipAt out k]: position [k] of [out] holds a tip. *)
Definition tipAt (out : list Item) (k : nat) : bool :=
  match out !! k with Some it => isTip it | None => false end.

Definition tipEligible (r : Rule) : bool :=
  match r with Adb | Ant | AndroidSdk => true | _ => false end.

(** Substring test, for what a text names. *)
Fixpoint contains (needle hay : string) : bool :=
  String.prefix needle hay ||
  match hay with
  | EmptyString => false
  | String _ hay' => contains needle hay'
  end.

(** The tip [printPackageManagerTip] leaves on an empty log: one item on
    Windows and on Darwin, nothing elsewhere. *)
Definition packageManagerTip (platform : Platform) : list Item :=
  items (Logger.exec (printPackageManagerTip platform) []).

(** ** The rule table of the specification

    Written after the table of the specification (persona gate, platform
    gate, predicate, tip eligibility); [compose_eval] below shows the two
    procedures compute exactly what the table prescribes. *)
Module RuleTable.

Definition appliesTo (r : Rule) (persona : Persona) : bool :=
  match r, persona with
  | (Ant | Xcode), LegacyProduct => false
  | _, _ => true
  end.

Definition platformGate (r : Rule) (platform : Platform) : bool :=
  match r with Xcode => isDarwin platform | _ => true end.

Definition predicate (r : Rule) (s : ISysInfoData) : bool :=
  match r with
  | Adb => negb (toBoolean (adbVer s))
  | Ant => negb (toBoolean (antVer s))
  | AndroidSdk => negb (androidInstalled s)
  | Xcode => negb (toBoolean (xcodeVer s))
  | ITunes => negb (itunesInstalled s)
  | Java => negb (toBoolean (javaVer s))
  end.

Definition fires (r : Rule) (s : ISysInfoData) (persona : Persona)
    (platform : Platform) : bool :=
  appliesTo r persona && platformGate r platform && predicate r s.

(** The warning of a rule, in the wording of the product. *)
Definition warningOf (r : Rule) (persona : Persona) (platform : Platform) : Item :=
  let eol := os.EOL platform in
  match r, persona with
  | Adb, PrimaryProduct => Warning NS_ADB_HEADLINE (NS_ADB_DETAIL eol)
  | Adb, LegacyProduct => Warning AB_ADB_HEADLINE (AB_ADB_DETAIL eol)
  | Ant, _ => Warning NS_ANT_HEADLINE (NS_ANT_DETAIL eol)
  | AndroidSdk, PrimaryProduct => Warning NS_ANDROID_HEADLINE (NS_ANDROID_DETAIL eol)
  | AndroidSdk, LegacyProduct => Warning AB_ANDROID_HEADLINE (AB_ANDROID_DETAIL eol)
  | Xcode, _ => Warning NS_XCODE_HEADLINE (NS_XCODE_DETAIL eol)
  | ITunes, PrimaryProduct => Warning NS_ITUNES_HEADLINE (NS_ITUNES_DETAIL eol)
  | ITunes, LegacyProduct => Warning AB_ITUNES_HEADLINE (AB_ITUNES_DETAIL eol)
  | Java, PrimaryProduct => Warning NS_JAVA_HEADLINE (NS_JAVA_DETAIL eol)
  | Java, LegacyProduct => Warning AB_JAVA_HEADLINE (AB_JAVA_DETAIL eol)
  end.

(** What one rule contributes: nothing, its warning, or its warning and
    the tip of the platform. *)
Definition block (s : ISysInfoData) (persona : Persona) (platform : Platform)
    (r : Rule) : list Item :=
  if fires r s persona platform then
    warningOf r persona platform ::
      (if tipEligible r then packageManagerTip platform else [])
  else [].

Definition eval (s : ISysInfoData) (persona : Persona) (platform : Platform)
    : list Item :=
  concat (map (block s persona platform) allRules).

End RuleTable.

(** Boolean checkers, decided by evaluation and related to the statements
    by the lemmas below. *)

(** Every warning is recognised by a rule whose index lies below those of
    all later warnings. *)
Fixpoint ordered (out : list Item) : bool :=
  match out with
  | [] => true
  | it :: rest =>
      match ruleOf it with
      | Some i =>
          forallb (fun it' =>
            match ruleOf it' with
            | Some j => Nat.ltb (ruleIndex i) (ruleIndex j)
            | None => true
            end) rest
      | None => true
      end && ordered rest
  end.

(** After each warning comes a tip exactly when its rule is tip-eligible
    and [tipped] holds. *)
Fixpoint wellTipped (tipped : bool) (out : list Item) : bool :=
  match out with
  | [] => true
  | it :: rest =>
      match ruleOf it with
      | Some r => Bool.eqb (tipAt rest 0) (tipEligible r && tipped)
      | None => true
      end && wellTipped tipped rest
  end.

(** Every tip of [out] is the tip of the platform. *)
Definition tipsFrom (platform : Platform) (out : list Item) : bool :=
  forallb (fun it =>
    negb (isTip it) || bool_decide (packageManagerTip platform = [it])) out.

(** The snapshot a tuple of test outcomes stands for. *)
Definition version (b : bool) : option string :=
  if b then Some "1" else None.

Definition ofFlags (adb ant android xcode itunes java : bool) : ISysInfoData :=
  {| adbVer := version adb; antVer := version ant; androidInstalled := android;
     xcodeVer := version xcode; itunesInstalled := itunes; javaVer := version java |}.

Definition flagsOf (s : ISysInfoData) : ISysInfoData :=
  ofFlags (toBoolean (adbVer s)) (toBoolean (antVer s)) (androidInstalled s)
    (toBoolean (xcodeVer s)) (itunesInstalled s) (toBoolean (javaVer s)).

(** Number of tip-eligible rules that fire, and the two counts it is
    compared with. *)
Definition eligibleFirings (s : ISysInfoData) (p : Persona) (pl : Platform) : nat :=
  length (List.filter (fun r => tipEligible r && RuleTable.fires r s p pl) allRules).

Definition countTips (out : list Item) : nat := length (List.filter isTip out).

Definition countEligibleWarnings (out : list Item) : nat :=
  length (List.filter
    (fun it => match ruleOf it with Some r => tipEligible r | None => false end)
    out).

(** ** Sample snapshots and relations between snapshots *)

(** The sample snapshot of the specification's end-to-end examples. *)
Definition sampleSnapshot : ISysInfoData :=
  {| adbVer := None; antVer := Some "1.9"; androidInstalled := true;
     xcodeVer := None; itunesInstalled := true; javaVer := Some "1.8" |}.

(** A host with nothing installed, and one with every tool in place. *)
Definition bareSnapshot : ISysInfoData :=
  {| adbVer := None; antVer := None; androidInstalled := false;
     xcodeVer := None; itunesInstalled := false; javaVer := None |}.

Definition fullSnapshot : ISysInfoData :=
  {| adbVer := Some "1.0.32"; antVer := Some "1.9"; androidInstalled := true;
     xcodeVer := Some "6.1"; itunesInstalled := true; javaVer := Some "1.8" |}.

Definition present (v : option string) : Prop := toBoolean v = true.

(** [degrades s s']: whatever is missing in [s] is missing in [s'] too. *)
Definition degrades (s s' : ISysInfoData) : Prop :=
  (absent (adbVer s) → absent (adbVer s')) ∧
  (absent (antVer s) → absent (antVer s')) ∧
  (androidInstalled s = false → androidInstalled s' = false) ∧
  (absent (xcodeVer s) → absent (xcodeVer s')) ∧
  (itunesInstalled s = false → itunesInstalled s' = false) ∧
  (absent (javaVer s) → absent (javaVer s')).

Definition isWarning (it : Item) : Prop := isTip it = false.

#[global] Instance isWarning_dec it : Decision (isWarning it).
Proof. unfold isWarning. apply _. Defined.

(** The warnings of the iTunes and of the Java rule. *)
Definition rule56 (it : Item) : bool :=
  bool_decide (ruleOf it = Some ITunes ∨ ruleOf it = Some Java).

(** ** The raw log and further observations *)

(** The log the procedure of the persona leaves when started on an empty
    log; [compose] is [items] of it. *)
Definition rawLog (snapshot : ISysInfoData) (persona : Persona)
    (platform : Platform) : list LogEntry :=
  Logger.exec
    (match persona with
     | PrimaryProduct => printNSWarnings platform snapshot
     | LegacyProduct => printAppBuilderWarnings platform snapshot
     end) [].

(** The logger calls an item stands for: [warn] then [out] for a warning,
    one [out] for a tip. *)
Definition entriesOf (it : Item) : list LogEntry :=
  match it with
  | Warning h d => [LogWarn h; LogOut d]
  | Tip t => [LogOut t]
  end.

Definition flatten (out : list Item) : list LogEntry :=
  concat (map entriesOf out).

(** [c] only appends to the log it is started on. *)
Definition appends (c : Logger.M unit) : Prop :=
  ∀ log, c log = (tt, log ++ Logger.exec c []).

(** Two snapshots on which the six tests of the procedures agree. *)
Definition sameTests (s s' : ISysInfoData) : Prop :=
  toBoolean (adbVer s) = toBoolean (adbVer s') ∧
  toBoolean (antVer s) = toBoolean (antVer s') ∧
  androidInstalled s = androidInstalled s' ∧
  toBoolean (xcodeVer s) = toBoolean (xcodeVer s') ∧
  itunesInstalled s = itunesInstalled s' ∧
  toBoolean (javaVer s) = toBoolean (javaVer s').

Definition withAntVer (v : option string) (s : ISysInfoData) : ISysInfoData :=
  {| adbVer := adbVer s; antVer := v; androidInstalled := androidInstalled s;
     xcodeVer := xcodeVer s; itunesInstalled := itunesInstalled s;
     javaVer := javaVer s |}.

Definition withXcodeVer (v : option string) (s : ISysInfoData) : ISysInfoData :=
  {| adbVer := adbVer s; antVer := antVer s; androidInstalled := androidInstalled s;
     xcodeVer := v; itunesInstalled := itunesInstalled s;
     javaVer := javaVer s |}.

(** The rules whose warnings occur in an output, in order of occurrence. *)
Definition rulesIn (out : list Item) : list Rule := omap ruleOf out.

(** Every tip of [out] comes right after a warning of a tip-eligible rule;
    [prev] is the item before the list. *)
Fixpoint tipsAttached (prev : option Item) (out : list Item) : bool :=
  match out with
  | [] => true
  | it :: rest =>
      (negb (isTip it) ||
       match prev ≫= ruleOf with
       | Some r => tipEligible r
       | None => false
       end) && tipsAttached (Some it) rest
  end.

Fixpoint endsWith (suffix s : string) : bool :=
  String.eqb suffix s ||
  match s with
  | EmptyString => false
  | String _ s' => endsWith suffix s'
  end.

(** The layout of one item: a headline is a single line that starts with
    the warning mark, a remediation text or a tip ends with the line
    terminator of the platform, and a tip starts with the tip mark. *)
Definition wellFormatted (platform : Platform) (it : Item) : bool :=
  match it with
  | Warning h d =>
      String.prefix "WARNING: " h && negb (contains os.LF h)
      && negb (contains (String (ascii_of_nat 13) EmptyString) h)
      && endsWith (os.EOL platform) d
  | Tip t => String.prefix "TIP: " t && endsWith (os.EOL platform) t
  end.

(** ** The whole command

    [execute] from its first statement to its last.  The collaborators
    are the file system, the help service, the system information
    provider and the commands service; what they are asked to do is
    recorded in a trace, in the order of the calls, together with the log
    entries.  [execute] has no [try]: a collaborator that throws ends the
    command there. *)
Module PostInstall.

Inductive Effect : Type :=
  | SetCurrentUserAsOwner (path user : string)
  | GenerateHtmlPages
  | GetSysInfo
  | Logged (entry : LogEntry)
  | TryExecuteCommand (name : string) (args : list string).

#[global] Instance Effect_eq_dec : EqDecision Effect.
Proof. solve_decision. Defined.

(** The surroundings of one run: the process, the options, the static
    configuration, the host, and how each collaborator answers. *)
Record World : Type := {
  process_platform : string;
  SUDO_USER : option string;
  profileDir : string;
  CLIENT_NAME : string;
  host : Platform;
  sysInfoData : ISysInfoData;
  setCurrentUserAsOwnerThrows : bool;
  generateHtmlPagesThrows : bool;
  getSysInfoThrows : bool;
  tryExecuteCommandThrows : bool
}.

(** A computation leaves a trace and either returns or throws ([None]). *)
Definition M (A : Type) : Type := list Effect -> option A * list Effect.

Definition ret {A} (a : A) : M A := fun trace => (Some a, trace).

Definition bind {A B} (c : M A) (k : A -> M B) : M B :=
  fun trace =>
    match c trace with
    | (Some a, trace') => k a trace'
    | (None, trace') => (None, trace')
    end.

(** A call to a collaborator: recorded, then it returns [a] or throws. *)
Definition call {A} (e : Effect) (throws : bool) (a : A) : M A :=
  fun trace => (if throws then None else Some a, trace ++ [e]).

(** The logger calls of a procedure, recorded in the trace. *)
Definition logging (c : Logger.M unit) : M unit :=
  fun trace => (Some tt, trace ++ map Logged (Logger.exec c [])).

#[global] Instance trace_ret : MRet M := @ret.
#[global] Instance trace_bind : MBind M := fun A B k c => bind c k.

Definition execute (w : World) : M unit :=
  (if negb (String.eqb (process_platform w) "win32") then
     if toBoolean (SUDO_USER w) then
       call (SetCurrentUserAsOwner (profileDir w) (default "" (SUDO_USER w)))
         (setCurrentUserAsOwnerThrows w) tt
     else mret tt
   else mret tt) ;;
  call GenerateHtmlPages (generateHtmlPagesThrows w) tt ;;
  sysInfo ← call GetSysInfo (getSysInfoThrows w) (sysInfoData w) ;
  (* the dispatch to the two procedures, modelled above *)
  logging (execute (host w) (CLIENT_NAME w) sysInfo) ;;
  call (TryExecuteCommand "autocomplete" []) (tryExecuteCommandThrows w) tt.

(** The trace and the outcome of a run started with an empty trace. *)
Definition trace (w : World) : list Effect := snd (execute w []).

Definition returns (w : World) : bool :=
  match fst (execute w []) with Some _ => true | None => false end.

(** The log entries of a trace, in order. *)
Definition logged (tr : list Effect) : list LogEntry :=
  omap (fun e => match e with Logged entry => Some entry | _ => None end) tr.

(** The owner of the profile directory is to be changed: the process
    does not run on [win32] and [SUDO_USER] is set. *)
Definition patchesOwner (w : World) : bool :=
  negb (String.eqb (process_platform w) "win32") && toBoolean (SUDO_USER w).

(** No collaborator throws. *)
Definition quiet (w : World) : Prop :=
  setCurrentUserAsOwnerThrows w = false ∧ generateHtmlPagesThrows w = false ∧
  getSysInfoThrows w = false ∧ tryExecuteCommandThrows w = false.

(** A run under [sudo] on a Darwin host with nothing installed. *)
Definition sudoWorld : World :=
  {| process_platform := "darwin"; SUDO_USER := Some "dev";
     profileDir := "/Users/dev/.local/share/.nativescript-cli";
     CLIENT_NAME := "tns"; host := Darwin; sysInfoData := bareSnapshot;
     setCurrentUserAsOwnerThrows := false; generateHtmlPagesThrows := false;
     getSysInfoThrows := false; tryExecuteCommandThrows := false |}.

(** The same run with a help service that throws. *)
Definition brokenHelpWorld : World :=
  {| process_platform := "darwin"; SUDO_USER := Some "dev";
     profileDir := "/Users/dev/.local/share/.nativescript-cli";
     CLIENT_NAME := "tns"; host := Darwin; sysInfoData := bareSnapshot;
     setCurrentUserAsOwnerThrows := false; generateHtmlPagesThrows := true;
     getSysInfoThrows := false; tryExecuteCommandThrows := false |}.

End PostInstall.

(** ** The kinds of analytics data *)

Inductive TrackingTypes : Type := Initialization | Feature | Exception | Finish.

(** The string each member of the enumeration stands for. *)
Definition trackingTypeValue (t : TrackingTypes) : string :=
  match t with
  | Initialization => "initialization"
  | Feature => "feature"
  | Exception => "exception"
  | Finish => "finish"
  end.

(** * Properties *)

Lemma toBoolean_version b : toBoolean (version b) = b.
Proof. by destruct b. Qed.

(** The output depends on the snapshot only through the six tests the
    procedures make. *)
Lemma compose_flagsOf s p pl : compose s p pl = compose (flagsOf s) p pl.
Proof.
  unfold compose, flagsOf, ofFlags, printNSWarnings, printAppBuilderWarnings.
  cbn [adbVer antVer androidInstalled xcodeVer itunesInstalled javaVer].
  by rewrite !toBoolean_version.
Qed.

Lemma fires_flagsOf r s p pl :
  RuleTable.fires r s p pl = RuleTable.fires r (flagsOf s) p pl.
Proof.
  unfold RuleTable.fires, RuleTable.predicate, flagsOf, ofFlags.
  cbn [adbVer antVer androidInstalled xcodeVer itunesInstalled javaVer].
  by rewrite !toBoolean_version.
Qed.

(** Reduces a goal about [compose s p pl] to the finitely many outcomes of
    the tests, each decided by evaluation. *)
Ltac by_flags s :=
  rewrite ?(compose_flagsOf s), ?(fires_flagsOf _ s); unfold flagsOf;
  generalize (toBoolean (adbVer s)) (toBoolean (antVer s)) (androidInstalled s)
    (toBoolean (xcodeVer s)) (itunesInstalled s) (toBoolean (javaVer s));
  intros [] [] [] [] [] []; vm_compute; try reflexivity.

(** The procedures refine the rule table. *)
Lemma compose_eval s p pl : compose s p pl = RuleTable.eval s p pl.
Proof.
  apply (bool_decide_eq_true_1 _).
  unfold RuleTable.eval, RuleTable.block, allRules; cbn [map concat].
  rewrite !(fires_flagsOf _ s).
  destruct p, pl; by_flags s.
Qed.

Lemma execute_compose pl name s :
  items (Logger.exec (execute pl name s) []) = compose s (personaOf name) pl.
Proof. unfold execute, compose, personaOf. by destruct (String.eqb name "tns"). Qed.

(** A rule's warning occurs in the output exactly when the rule fires. *)
Lemma emits_fires r s p pl :
  emits r (compose s p pl) = RuleTable.fires r s p pl.
Proof. destruct r, p, pl; by_flags s. Qed.

Lemma fires_Xcode s p pl :
  RuleTable.fires Xcode s p pl = true ↔
  p = PrimaryProduct ∧ pl = Darwin ∧ absent (xcodeVer s).
Proof.
  unfold RuleTable.fires, absent; cbn.
  destruct p, pl, (toBoolean (xcodeVer s)); cbn; intuition congruence.
Qed.

(** C1. The Xcode warning (rule 4) occurs in the output of [compose] if and
    only if the persona is [PrimaryProduct], the platform is [Darwin] and
    [xcodeVer] is absent; in every other combination it does not occur. *)
Theorem xcode_warning_iff (s : ISysInfoData) (p : Persona) (pl : Platform) :
  emits Xcode (compose s p pl) = true ↔
  p = PrimaryProduct ∧ pl = Darwin ∧ absent (xcodeVer s).
Proof. rewrite emits_fires. apply fires_Xcode. Qed.

(** C3. For the persona [LegacyProduct] the output never contains the Ant
    warning (rule 2) nor the Xcode warning (rule 4), whatever the snapshot
    and the platform. *)
Theorem legacy_never_ant_nor_xcode (s : ISysInfoData) (pl : Platform) :
  emits Ant (compose s LegacyProduct pl) = false ∧
  emits Xcode (compose s LegacyProduct pl) = false.
Proof. by rewrite !emits_fires. Qed.

(** C6. When the four versions are present and both the Android SDK and
    iTunes are installed, [compose] returns the empty sequence for every
    persona and platform. *)
Theorem all_present_empty (s : ISysInfoData) (p : Persona) (pl : Platform) :
  present (adbVer s) → present (antVer s) → present (xcodeVer s) →
  present (javaVer s) → androidInstalled s = true → itunesInstalled s = true →
  compose s p pl = [].
Proof.
  unfold present. intros Hadb Hant Hxcode Hjava Handroid Hitunes.
  rewrite compose_flagsOf. unfold flagsOf.
  rewrite Hadb, Hant, Hxcode, Hjava, Handroid, Hitunes.
  by destruct p, pl.
Qed.

Lemma all_present_empty_witness :
  compose fullSnapshot PrimaryProduct Darwin = [].
Proof. apply all_present_empty; reflexivity. Defined.

(** C7. On the sample snapshot (adb and Xcode missing, everything else in
    place) with persona [PrimaryProduct] on [Darwin], [compose] returns
    exactly the adb warning, the Homebrew tip and the Xcode warning. *)
Theorem sample_primary_darwin :
  compose sampleSnapshot PrimaryProduct Darwin =
    [ Warning NS_ADB_HEADLINE (NS_ADB_DETAIL (os.EOL Darwin));
      Tip (TIP_DARWIN (os.EOL Darwin));
      Warning NS_XCODE_HEADLINE (NS_XCODE_DETAIL (os.EOL Darwin)) ] ∧
  map ruleOf (compose sampleSnapshot PrimaryProduct Darwin) =
    [Some Adb; None; Some Xcode].
Proof. split; reflexivity. Qed.

(** *** Order of the warnings *)

Lemma ordered_lookup (out : list Item) :
  ordered out = true →
  ∀ a b wa wb i j,
    out !! a = Some wa → out !! b = Some wb →
    ruleOf wa = Some i → ruleOf wb = Some j →
    a < b → ruleIndex i < ruleIndex j.
Proof.
  induction out as [|it rest IH]; intros Hord a b wa wb i j Ha Hb Hi Hj Hab.
  - by rewrite lookup_nil in Ha.
  - cbn [ordered] in Hord. apply andb_prop in Hord as [Hhead Hrest].
    destruct b as [|b]; [lia|]. cbn in Hb.
    destruct a as [|a]; cbn in Ha.
    + injection Ha as ->. rewrite Hi in Hhead.
      rewrite forallb_forall in Hhead.
      specialize (Hhead wb). rewrite Hj in Hhead.
      apply Nat.ltb_lt, Hhead, list_elem_of_In.
      by eapply list_elem_of_lookup_2.
    + eapply (IH Hrest a b); eauto. lia.
Qed.

Lemma compose_ordered s p pl : ordered (compose s p pl) = true.
Proof. destruct p, pl; by_flags s. Qed.

(** C2. The warnings come in the order of the rule table: when the
    warnings of two rules [i] and [j] both occur in the output and [i]
    stands before [j] in the table, the warning of [i] stands before the
    warning of [j] in the output. *)
Theorem warnings_in_rule_order (s : ISysInfoData) (p : Persona) (pl : Platform)
    (a b : nat) (wa wb : Item) (i j : Rule) :
  compose s p pl !! a = Some wa → compose s p pl !! b = Some wb →
  ruleOf wa = Some i → ruleOf wb = Some j →
  ruleIndex i < ruleIndex j → a < b.
Proof.
  intros Ha Hb Hi Hj Hij.
  pose proof (ordered_lookup _ (compose_ordered s p pl)) as Hord.
  destruct (Nat.lt_trichotomy a b) as [Hlt|[Heq|Hgt]]; [done| |].
  - subst b. rewrite Ha in Hb. injection Hb as <-.
    rewrite Hi in Hj. injection Hj as <-. lia.
  - specialize (Hord b a wb wa j i Hb Ha Hj Hi Hgt). lia.
Qed.

Lemma warnings_in_rule_order_witness :
  compose sampleSnapshot PrimaryProduct Darwin !! 0 =
    Some (RuleTable.warningOf Adb PrimaryProduct Darwin) ∧
  compose sampleSnapshot PrimaryProduct Darwin !! 2 =
    Some (RuleTable.warningOf Xcode PrimaryProduct Darwin) ∧
  0 < 2.
Proof.
  split; [reflexivity|]. split; [reflexivity|].
  apply (warnings_in_rule_order sampleSnapshot PrimaryProduct Darwin 0 2
           (RuleTable.warningOf Adb PrimaryProduct Darwin)
           (RuleTable.warningOf Xcode PrimaryProduct Darwin) Adb Xcode);
    try reflexivity.
  cbn. lia.
Defined.

(** *** Tips *)

Lemma wellTipped_lookup (tipped : bool) (out : list Item) :
  wellTipped tipped out = true →
  ∀ k w r, out !! k = Some w → ruleOf w = Some r →
    tipAt out (S k) = tipEligible r && tipped.
Proof.
  induction out as [|it rest IH]; intros Hwt k w r Hk Hr.
  - by rewrite lookup_nil in Hk.
  - cbn [wellTipped] in Hwt. apply andb_prop in Hwt as [Hhead Hrest].
    destruct k as [|k]; cbn in Hk.
    + injection Hk as ->. rewrite Hr in Hhead.
      by apply Bool.eqb_prop in Hhead.
    + by apply (IH Hrest k w r).
Qed.

Lemma compose_wellTipped s p pl :
  wellTipped (isWindows pl || isDarwin pl) (compose s p pl) = true.
Proof. destruct p, pl; by_flags s. Qed.

Lemma compose_Other_no_tip s p :
  forallb (fun it => negb (isTip it)) (compose s p Other) = true.
Proof. destruct p; by_flags s. Qed.

Lemma hasTip_iff pl :
  isWindows pl || isDarwin pl = true ↔ pl = Windows ∨ pl = Darwin.
Proof. destruct pl; cbn; intuition congruence. Qed.

(** C4. After the warning of a tip-eligible rule (adb, Ant, Android SDK)
    the next item is a tip if and only if the platform is [Windows] or
    [Darwin]; on [Other] the output holds no tip at all; and the item
    after a warning of the Xcode, iTunes or Java rule is never a tip. *)
Theorem tip_presence (s : ISysInfoData) (p : Persona) (pl : Platform) :
  (∀ k w r, compose s p pl !! k = Some w → ruleOf w = Some r →
     tipEligible r = true →
     (tipAt (compose s p pl) (S k) = true ↔ pl = Windows ∨ pl = Darwin)) ∧
  (pl = Other → ∀ it, it ∈ compose s p pl → isTip it = false) ∧
  (∀ k w r, compose s p pl !! k = Some w → ruleOf w = Some r →
     tipEligible r = false → tipAt (compose s p pl) (S k) = false).
Proof.
  pose proof (wellTipped_lookup _ _ (compose_wellTipped s p pl)) as Hwt.
  split; [|split].
  - intros k w r Hk Hr Hel. rewrite (Hwt k w r Hk Hr), Hel. apply hasTip_iff.
  - intros -> it Hit.
    pose proof (compose_Other_no_tip s p) as Hno.
    rewrite forallb_forall in Hno.
    apply negb_true_iff, Hno, list_elem_of_In, Hit.
  - intros k w r Hk Hr Hel. by rewrite (Hwt k w r Hk Hr), Hel.
Qed.

Lemma tip_presence_witness :
  tipAt (compose bareSnapshot PrimaryProduct Windows) 1 = true ↔
  Windows = Windows ∨ Windows = Darwin.
Proof.
  apply (proj1 (tip_presence bareSnapshot PrimaryProduct Windows)
           0 (RuleTable.warningOf Adb PrimaryProduct Windows) Adb);
    reflexivity.
Defined.


Lemma compose_tipsFrom s p pl : tipsFrom pl (compose s p pl) = true.
Proof. destruct p, pl; by_flags s. Qed.

Lemma tip_in_compose s p pl t :
  Tip t ∈ compose s p pl → packageManagerTip pl = [Tip t].
Proof.
  intros Hin. pose proof (compose_tipsFrom s p pl) as Hall.
  unfold tipsFrom in Hall. rewrite forallb_forall in Hall.
  apply list_elem_of_In, Hall in Hin. cbn in Hin.
  by apply bool_decide_eq_true_1 in Hin.
Qed.

Lemma eligibleFirings_flagsOf s p pl :
  eligibleFirings s p pl = eligibleFirings (flagsOf s) p pl.
Proof.
  unfold eligibleFirings, allRules. cbn [List.filter].
  by rewrite !(fires_flagsOf _ s).
Qed.

Lemma counts_agree s p pl :
  pl ≠ Other →
  countTips (compose s p pl) = eligibleFirings s p pl ∧
  countEligibleWarnings (compose s p pl) = eligibleFirings s p pl.
Proof.
  intros Hpl. rewrite eligibleFirings_flagsOf.
  destruct pl; [| |done]; destruct p; by_flags s; done.
Qed.

(** C5. On [Windows] and on [Darwin] the tip is repeated for every firing:
    when [n] of the tip-eligible rules fire, the output holds exactly [n]
    tips and exactly [n] warnings of tip-eligible rules, and the item right
    after each of these warnings is the tip of the platform. *)
Theorem tip_per_firing (s : ISysInfoData) (p : Persona) (pl : Platform) :
  pl = Windows ∨ pl = Darwin →
  countTips (compose s p pl) = eligibleFirings s p pl ∧
  countEligibleWarnings (compose s p pl) = eligibleFirings s p pl ∧
  ∀ k w r, compose s p pl !! k = Some w → ruleOf w = Some r →
    tipEligible r = true →
    ∃ t, compose s p pl !! S k = Some (Tip t) ∧ packageManagerTip pl = [Tip t].
Proof.
  intros Hpl.
  assert (pl ≠ Other) as Hne by (destruct Hpl; congruence).
  destruct (counts_agree s p pl Hne) as [Htips Hwarn].
  split; [done|]. split; [done|].
  intros k w r Hk Hr Hel.
  pose proof (wellTipped_lookup _ _ (compose_wellTipped s p pl) k w r Hk Hr) as Hat.
  rewrite Hel, (proj2 (hasTip_iff pl) Hpl) in Hat. unfold tipAt in Hat.
  destruct (compose s p pl !! S k) as [[h d|t]|] eqn:Hnext; try done.
  exists t. split; [done|].
  eapply tip_in_compose, list_elem_of_lookup_2, Hnext.
Qed.

Lemma tip_per_firing_witness :
  countTips (compose bareSnapshot PrimaryProduct Darwin) = 3 ∧
  eligibleFirings bareSnapshot PrimaryProduct Darwin = 3 ∧
  countEligibleWarnings (compose bareSnapshot PrimaryProduct Darwin) = 3.
Proof.
  destruct (tip_per_firing bareSnapshot PrimaryProduct Darwin (or_intror eq_refl))
    as (Htips & Hwarn & _).
  assert (eligibleFirings bareSnapshot PrimaryProduct Darwin = 3) as Hn
    by reflexivity.
  rewrite Htips, Hwarn. auto.
Defined.

(** C8. The text of a tip is determined by the platform alone: tips taken
    from two outputs for the same platform, whatever the snapshots and the
    personas, have the same text; on [Windows] it names chocolatey and on
    [Darwin] it names Homebrew. *)
Theorem tip_text_by_platform (pl : Platform)
    (s1 s2 : ISysInfoData) (p1 p2 : Persona) (t1 t2 : string) :
  Tip t1 ∈ compose s1 p1 pl → Tip t2 ∈ compose s2 p2 pl →
  t1 = t2 ∧
  packageManagerTip pl = [Tip t1] ∧
  (pl = Windows → contains "chocolatey" t1 = true) ∧
  (pl = Darwin → contains "Homebrew" t1 = true).
Proof.
  intros H1%tip_in_compose H2%tip_in_compose.
  split; [congruence|]. split; [done|].
  split; intros ->; injection H1 as <-; reflexivity.
Qed.

Lemma tip_text_by_platform_witness :
  TIP_WINDOWS (os.EOL Windows) = TIP_WINDOWS (os.EOL Windows) ∧
  contains "chocolatey" (TIP_WINDOWS (os.EOL Windows)) = true.
Proof.
  destruct (tip_text_by_platform Windows sampleSnapshot bareSnapshot
              LegacyProduct PrimaryProduct
              (TIP_WINDOWS (os.EOL Windows)) (TIP_WINDOWS (os.EOL Windows)))
    as (Heq & _ & Hchoco & _).
  - apply (bool_decide_unpack _). vm_compute. exact I.
  - apply (bool_decide_unpack _). vm_compute. exact I.
  - split; [exact Heq | exact (Hchoco eq_refl)].
Defined.

(** *** Wording *)

Lemma ruleOf_warningOf r p pl : ruleOf (RuleTable.warningOf r p pl) = Some r.
Proof. by destruct r, p. Qed.

Lemma ruleOf_packageManagerTip pl it :
  it ∈ packageManagerTip pl → ruleOf it = None.
Proof.
  destruct pl; cbn; intros Hin.
  - by apply list_elem_of_singleton in Hin as ->.
  - by apply list_elem_of_singleton in Hin as ->.
  - by apply elem_of_nil in Hin.
Qed.

(** A warning of the output has the wording the table gives its rule. *)
Lemma warning_wording s p pl w r :
  w ∈ compose s p pl → ruleOf w = Some r → w = RuleTable.warningOf r p pl.
Proof.
  rewrite compose_eval. unfold RuleTable.eval.
  intros Hin%list_elem_of_In Hr.
  apply in_concat in Hin as (blk & Hblk & Hin).
  apply in_map_iff in Hblk as (r' & <- & _).
  unfold RuleTable.block in Hin.
  destruct (RuleTable.fires r' s p pl); [|done].
  destruct Hin as [<-|Hin].
  - rewrite ruleOf_warningOf in Hr. by injection Hr as ->.
  - destruct (tipEligible r'); [|done].
    apply list_elem_of_In, ruleOf_packageManagerTip in Hin. congruence.
Qed.

(** C9. The iTunes and the Java warning read the same, headline and
    detail, for both personas: the two outputs agree on the warnings of
    rules 5 and 6.  The persona does change the wording of the adb and the
    Android SDK warning. *)
Theorem itunes_java_wording_shared (s : ISysInfoData) (pl : Platform) :
  List.filter rule56 (compose s PrimaryProduct pl) =
    List.filter rule56 (compose s LegacyProduct pl) ∧
  (∀ r w w', r = ITunes ∨ r = Java →
     w ∈ compose s PrimaryProduct pl → w' ∈ compose s LegacyProduct pl →
     ruleOf w = Some r → ruleOf w' = Some r → w = w') ∧
  (∀ r w w', r = Adb ∨ r = AndroidSdk →
     w ∈ compose s PrimaryProduct pl → w' ∈ compose s LegacyProduct pl →
     ruleOf w = Some r → ruleOf w' = Some r → w ≠ w').
Proof.
  split; [|split].
  - apply (bool_decide_eq_true_1 _). destruct pl; by_flags s.
  - intros r w w' Hr Hw Hw' Hrw Hrw'.
    rewrite (warning_wording _ _ _ _ _ Hw Hrw), (warning_wording _ _ _ _ _ Hw' Hrw').
    by destruct Hr as [-> | ->].
  - intros r w w' Hr Hw Hw' Hrw Hrw'.
    rewrite (warning_wording _ _ _ _ _ Hw Hrw), (warning_wording _ _ _ _ _ Hw' Hrw').
    destruct Hr as [-> | ->]; apply (bool_decide_eq_false_1 _); by destruct pl.
Qed.

Lemma itunes_java_wording_shared_witness :
  RuleTable.warningOf Java PrimaryProduct Windows =
    RuleTable.warningOf Java LegacyProduct Windows.
Proof.
  apply (proj1 (proj2 (itunes_java_wording_shared bareSnapshot Windows)) Java).
  - by right.
  - apply (bool_decide_unpack _). vm_compute. exact I.
  - apply (bool_decide_unpack _). vm_compute. exact I.
  - reflexivity.
  - reflexivity.
Defined.

(** *** Monotonicity *)

Section Monotone.

Variables (s s' : ISysInfoData) (p : Persona) (pl : Platform).
Hypothesis Hdeg : degrades s s'.

Lemma predicate_mono r :
  RuleTable.predicate r s = true → RuleTable.predicate r s' = true.
Proof.
  destruct Hdeg as (Hadb & Hant & Handroid & Hxcode & Hitunes & Hjava).
  unfold absent in *.
  destruct r; cbn; rewrite !negb_true_iff; auto.
Qed.

Lemma fires_mono r :
  RuleTable.fires r s p pl = true → RuleTable.fires r s' p pl = true.
Proof.
  unfold RuleTable.fires. rewrite !andb_true_iff.
  intros [Hgates Hpred]. split; [done|]. by apply predicate_mono.
Qed.

Lemma block_mono r :
  RuleTable.block s p pl r `sublist_of` RuleTable.block s' p pl r.
Proof.
  unfold RuleTable.block.
  destruct (RuleTable.fires r s p pl) eqn:Hf.
  - by rewrite (fires_mono r Hf).
  - apply sublist_nil_l.
Qed.

Lemma blocks_mono (rules : list Rule) :
  concat (map (RuleTable.block s p pl) rules)
    `sublist_of` concat (map (RuleTable.block s' p pl) rules).
Proof.
  induction rules as [|r rules IH]; cbn [map concat].
  - constructor.
  - apply sublist_app; [apply block_mono | exact IH].
Qed.

End Monotone.

Lemma filter_sublist_mono {A} (P : A → Prop) `{!∀ x, Decision (P x)}
    (l1 l2 : list A) :
  l1 `sublist_of` l2 → filter P l1 `sublist_of` filter P l2.
Proof.
  induction 1 as [|x l1 l2 _ IH|x l1 l2 _ IH]; [constructor| |].
  - rewrite !filter_cons. destruct (decide (P x)); [by constructor|done].
  - rewrite filter_cons. destruct (decide (P x)); [by constructor|done].
Qed.

(** C10. [compose] is monotone in what is missing: when every capability
    missing in [s] is missing in [s'] as well, the output for [s] is a
    subsequence of the output for [s'], and so is its sequence of
    warnings; nothing is dropped and nothing changes place. *)
Theorem compose_monotone (s s' : ISysInfoData) (p : Persona) (pl : Platform) :
  degrades s s' →
  compose s p pl `sublist_of` compose s' p pl ∧
  filter isWarning (compose s p pl) `sublist_of` filter isWarning (compose s' p pl).
Proof.
  intros Hdeg.
  assert (compose s p pl `sublist_of` compose s' p pl) as Hsub.
  { rewrite !compose_eval. by apply blocks_mono. }
  split; [exact Hsub|]. by apply filter_sublist_mono.
Qed.

Lemma compose_monotone_witness :
  degrades sampleSnapshot bareSnapshot ∧
  compose sampleSnapshot LegacyProduct Windows
    `sublist_of` compose bareSnapshot LegacyProduct Windows.
Proof.
  assert (degrades sampleSnapshot bareSnapshot) as Hdeg.
  { unfold degrades, absent. cbn. intuition congruence. }
  split; [exact Hdeg|].
  exact (proj1 (compose_monotone sampleSnapshot bareSnapshot LegacyProduct
                  Windows Hdeg)).
Defined.

(** * Further properties of the procedures *)

(** *** The raw log *)

Lemma rawLog_flagsOf s p pl : rawLog s p pl = rawLog (flagsOf s) p pl.
Proof.
  unfold rawLog, flagsOf, ofFlags, printNSWarnings, printAppBuilderWarnings.
  cbn [adbVer antVer androidInstalled xcodeVer itunesInstalled javaVer].
  by rewrite !toBoolean_version.
Qed.

Lemma compose_rawLog s p pl : compose s p pl = items (rawLog s p pl).
Proof. reflexivity. Qed.

Ltac by_raw_flags s :=
  rewrite ?(rawLog_flagsOf s); unfold flagsOf;
  generalize (toBoolean (adbVer s)) (toBoolean (antVer s)) (androidInstalled s)
    (toBoolean (xcodeVer s)) (itunesInstalled s) (toBoolean (javaVer s));
  intros [] [] [] [] [] []; vm_compute; try reflexivity.

Create HintDb logger discriminated.

Lemma appends_ret : appends (mret tt).
Proof. intros log. unfold Logger.exec; cbn. by rewrite app_nil_r. Qed.

Lemma appends_warn msg : appends (Logger.warn msg).
Proof. by intros log. Qed.

Lemma appends_out msg : appends (Logger.out msg).
Proof. by intros log. Qed.

Lemma appends_bind (c1 c2 : Logger.M unit) :
  appends c1 → appends c2 → appends (c1 ;; c2).
Proof.
  intros H1 H2 log. unfold Logger.exec.
  unfold mbind, logger_bind, Logger.bind.
  rewrite (H1 log), (H1 []), (H2 (log ++ _)), (H2 ([] ++ _)).
  cbn. by rewrite app_assoc.
Qed.

Lemma appends_when b c : appends c → appends (Logger.when b c).
Proof. destruct b; [done|]. intros _. apply appends_ret. Qed.

#[local] Hint Resolve appends_ret appends_warn appends_out appends_bind
  appends_when : logger.

Lemma appends_printPackageManagerTip pl : appends (printPackageManagerTip pl).
Proof. destruct pl; cbv [printPackageManagerTip isWindows isDarwin]; auto with logger. Qed.

#[local] Hint Resolve appends_printPackageManagerTip : logger.




Lemma flatten_cons it out : flatten (it :: out) = entriesOf it ++ flatten out.
Proof. reflexivity. Qed.

Lemma items_flatten out : items (flatten out) = out.
Proof.
  induction out as [|[h d|t] out IH]; [done| |]; rewrite flatten_cons; cbn.
  - by rewrite IH.
  - by rewrite IH.
Qed.

Lemma flatten_warn_then_out out :
  ∀ k h, flatten out !! k = Some (LogWarn h) →
    ∃ d, flatten out !! S k = Some (LogOut d) ∧ Warning h d ∈ out.
Proof.
  induction out as [|[h' d'|t] out IH]; intros k h Hk.
  - by destruct k.
  - rewrite flatten_cons in Hk |- *. cbn in Hk |- *.
    destruct k as [|[|k]]; cbn in Hk |- *.
    + injection Hk as ->. exists d'. split; [done|]. apply list_elem_of_here.
    + done.
    + destruct (IH k h Hk) as (d & Hd & Hin). exists d.
      split; [done|]. by apply list_elem_of_further.
  - rewrite flatten_cons in Hk |- *. cbn in Hk |- *.
    destruct k as [|k]; cbn in Hk |- *; [done|].
    destruct (IH k h Hk) as (d & Hd & Hin). exists d.
    split; [done|]. by apply list_elem_of_further.
Qed.

(** X2. Reading the log back as warnings and tips loses nothing: the raw
    log is exactly the sequence of logger calls of the items of [compose],
    a [warn] and an [out] for each warning and one [out] for each tip. *)
Theorem rawLog_roundtrip (s : ISysInfoData) (p : Persona) (pl : Platform) :
  flatten (compose s p pl) = rawLog s p pl.
Proof.
  rewrite compose_rawLog. apply (bool_decide_eq_true_1 _).
  destruct p, pl; by_raw_flags s.
Qed.

(** X3. In the raw log every [warn] is directly followed by an [out], the
    remediation text of that headline: no headline is logged twice in a
    row and none is the last entry. *)
Theorem warn_followed_by_out (s : ISysInfoData) (p : Persona) (pl : Platform)
    (k : nat) (h : string) :
  rawLog s p pl !! k = Some (LogWarn h) →
  ∃ d, rawLog s p pl !! S k = Some (LogOut d) ∧ Warning h d ∈ compose s p pl.
Proof.
  rewrite <- rawLog_roundtrip. apply flatten_warn_then_out.
Qed.

Lemma warn_followed_by_out_witness :
  ∃ d, rawLog sampleSnapshot PrimaryProduct Darwin !! 4 = Some (LogOut d) ∧
       Warning NS_XCODE_HEADLINE d ∈ compose sampleSnapshot PrimaryProduct Darwin.
Proof.
  apply (warn_followed_by_out sampleSnapshot PrimaryProduct Darwin 3
           NS_XCODE_HEADLINE).
  reflexivity.
Defined.

(** *** What the output depends on *)

(** X4. The output depends on the snapshot only through the outcome of
    the six tests: two snapshots on which the tests agree give the same
    output, so no version string is ever printed, and an empty version
    string counts as a missing one. *)
Theorem output_depends_on_tests_only (s s' : ISysInfoData) (p : Persona)
    (pl : Platform) :
  sameTests s s' →
  compose s p pl = compose s' p pl ∧ rawLog s p pl = rawLog s' p pl.
Proof.
  intros (Hadb & Hant & Handroid & Hxcode & Hitunes & Hjava).
  rewrite (compose_flagsOf s), (compose_flagsOf s'),
    (rawLog_flagsOf s), (rawLog_flagsOf s').
  unfold flagsOf.
  by rewrite Hadb, Hant, Handroid, Hxcode, Hitunes, Hjava.
Qed.

Lemma output_depends_on_tests_only_witness :
  compose (withAntVer (Some "") bareSnapshot) PrimaryProduct Windows =
    compose bareSnapshot PrimaryProduct Windows.
Proof.
  apply (output_depends_on_tests_only (withAntVer (Some "") bareSnapshot)
           bareSnapshot PrimaryProduct Windows).
  repeat split; reflexivity.
Defined.

(** X5. Fields a procedure does not read do not matter: the Legacy
    output ignores [antVer] and [xcodeVer] altogether, and off Darwin no
    output depends on [xcodeVer]. *)
Theorem unread_fields_ignored (s : ISysInfoData) (v v' : option string)
    (p : Persona) (pl : Platform) :
  compose (withAntVer v (withXcodeVer v' s)) LegacyProduct pl =
    compose s LegacyProduct pl ∧
  (pl ≠ Darwin → compose (withXcodeVer v s) p pl = compose s p pl).
Proof.
  split.
  - reflexivity.
  - intros Hpl. destruct p; [|reflexivity].
    destruct pl; [reflexivity|done|reflexivity].
Qed.

Lemma unread_fields_ignored_witness :
  compose (withXcodeVer (Some "6.1") bareSnapshot) PrimaryProduct Windows =
    compose bareSnapshot PrimaryProduct Windows.
Proof.
  apply (proj2 (unread_fields_ignored bareSnapshot (Some "6.1") None
                  PrimaryProduct Windows)).
  discriminate.
Defined.

(** *** Which warnings occur *)

(** X6. Each warning occurs under its own condition and under no other:
    adb, the Android SDK, iTunes and Java whenever their capability is
    missing, Ant only for the primary product, Xcode only for the primary
    product on Darwin. *)
Theorem warning_conditions (s : ISysInfoData) (p : Persona) (pl : Platform) :
  (emits Adb (compose s p pl) = true ↔ absent (adbVer s)) ∧
  (emits Ant (compose s p pl) = true ↔
     p = PrimaryProduct ∧ absent (antVer s)) ∧
  (emits AndroidSdk (compose s p pl) = true ↔ androidInstalled s = false) ∧
  (emits Xcode (compose s p pl) = true ↔
     p = PrimaryProduct ∧ pl = Darwin ∧ absent (xcodeVer s)) ∧
  (emits ITunes (compose s p pl) = true ↔ itunesInstalled s = false) ∧
  (emits Java (compose s p pl) = true ↔ absent (javaVer s)).
Proof.
  rewrite !emits_fires. unfold RuleTable.fires, absent. cbn.
  repeat split; try (intros (-> & -> & ->)); try (intros (-> & ->));
    try (intros ->); try done;
    destruct p, pl; cbn in *; try done;
    rewrite ?negb_true_iff in *; try done.
Qed.

Lemma concat_nil_iff {A} (ls : list (list A)) :
  concat ls = [] ↔ Forall (λ l, l = []) ls.
Proof.
  induction ls as [|l ls IH]; cbn.
  - split; [constructor|done].
  - split.
    + intros [-> Hrest]%app_eq_nil. constructor; [done|by apply IH].
    + intros Hall. inversion Hall as [|?? -> Hls]. cbn. by apply IH.
Qed.

Lemma compose_nil_iff_no_firing s p pl :
  compose s p pl = [] ↔ ∀ r, RuleTable.fires r s p pl = false.
Proof.
  rewrite compose_eval. unfold RuleTable.eval.
  rewrite concat_nil_iff, Forall_forall. split.
  - intros Hall r.
    assert (In (RuleTable.block s p pl r) (map (RuleTable.block s p pl) allRules))
      as Hin by (apply in_map; destruct r; cbn; tauto).
    apply list_elem_of_In in Hin. specialize (Hall _ Hin). unfold RuleTable.block in Hall.
    by destruct (RuleTable.fires r s p pl).
  - intros Hno blk Hin%list_elem_of_In.
    apply in_map_iff in Hin as (r & <- & _).
    unfold RuleTable.block. by rewrite Hno.
Qed.

(** X7. [compose] returns the empty sequence exactly when nothing it
    checks is missing: adb, the Android SDK, iTunes and Java are there,
    and for the primary product also Ant and, on Darwin, Xcode.  For the
    legacy product a missing Ant or Xcode leaves the output empty. *)
Theorem compose_empty_iff (s : ISysInfoData) (p : Persona) (pl : Platform) :
  compose s p pl = [] ↔
  present (adbVer s) ∧ androidInstalled s = true ∧
  itunesInstalled s = true ∧ present (javaVer s) ∧
  (p = PrimaryProduct →
     present (antVer s) ∧ (pl = Darwin → present (xcodeVer s))).
Proof.
  rewrite compose_nil_iff_no_firing. unfold present. split.
  - intros Hno.
    pose proof (Hno Adb) as Hadb. pose proof (Hno Ant) as Hant.
    pose proof (Hno AndroidSdk) as Handroid. pose proof (Hno Xcode) as Hxcode.
    pose proof (Hno ITunes) as Hitunes. pose proof (Hno Java) as Hjava.
    unfold RuleTable.fires in *. cbn in *.
    rewrite negb_false_iff in Hadb, Handroid, Hitunes, Hjava.
    split; [done|]. split; [done|]. split; [done|]. split; [done|].
    intros ->. cbn in Hant. rewrite negb_false_iff in Hant.
    split; [done|]. intros ->. cbn in Hxcode. by rewrite negb_false_iff in Hxcode.
  - intros (Hadb & Handroid & Hitunes & Hjava & Hprimary) r.
    unfold RuleTable.fires.
    destruct r; cbn; rewrite ?Hadb, ?Handroid, ?Hitunes, ?Hjava; try done.
    + destruct p; [|done]. destruct (Hprimary eq_refl) as [-> _]. done.
    + destruct p; [|done]. destruct pl; try done.
      destruct (Hprimary eq_refl) as [_ Hx]. by rewrite (Hx eq_refl).
Qed.

(** X8. The output is short: at most nine items (six warnings and three
    tips) and fifteen log entries; at most six items and ten log entries
    for the legacy product; at most five items, all of them warnings, on
    a platform other than Windows and Darwin. *)
Theorem output_length_bounds (s : ISysInfoData) (p : Persona) (pl : Platform) :
  (length (compose s p pl) ≤ 9 ∧ length (rawLog s p pl) ≤ 15 ∧
   (p = LegacyProduct →
      length (compose s p pl) ≤ 6 ∧ length (rawLog s p pl) ≤ 10) ∧
   (pl = Other → length (compose s p pl) ≤ 5))%nat.
Proof.
  assert (∀ n m : nat, Nat.leb n m = true → (n ≤ m)%nat) as Hle
    by (intros n m; apply Nat.leb_le).
  split; [|split; [|split]].
  - apply Hle. destruct p, pl; by_flags s.
  - apply Hle. destruct p, pl; by_raw_flags s.
  - intros ->. split; apply Hle.
    + destruct pl; by_flags s.
    + destruct pl; by_raw_flags s.
  - intros ->. apply Hle. destruct p; by_flags s.
Qed.

(** X9. No warning is printed twice: the warnings of an output are
    pairwise different, and they stand for pairwise different rules. *)
Theorem warnings_not_repeated (s : ISysInfoData) (p : Persona) (pl : Platform) :
  NoDup (filter isWarning (compose s p pl)) ∧ NoDup (rulesIn (compose s p pl)).
Proof.
  split; apply (bool_decide_eq_true_1 _); destruct p, pl; by_flags s.
Qed.

(** *** Where tips stand *)

Lemma tipsAttached_lookup out :
  ∀ prev, tipsAttached prev out = true →
  ∀ k t, out !! k = Some (Tip t) →
    ∃ w r, (match k with 0 => prev | S k' => out !! k' end) = Some w ∧
           ruleOf w = Some r ∧ tipEligible r = true.
Proof.
  induction out as [|it rest IH]; intros prev Hat k t Hk.
  - by destruct k.
  - cbn [tipsAttached] in Hat. apply andb_prop in Hat as [Hhead Hrest].
    destruct k as [|k]; cbn in Hk.
    + injection Hk as ->. cbn in Hhead.
      destruct prev as [w|]; [|done]. cbn in Hhead.
      destruct (ruleOf w) as [r|] eqn:Hr; [|done]. by exists w, r.
    + destruct (IH (Some it) Hrest k t Hk) as (w & r & Hw & Hr & Hel).
      exists w, r. split; [|done]. by destruct k.
Qed.

Lemma compose_tipsAttached s p pl : tipsAttached None (compose s p pl) = true.
Proof. destruct p, pl; by_flags s. Qed.

(** X10. A tip never stands alone: every tip of the output comes right
    after the warning of a tip-eligible rule (adb, Ant or the Android
    SDK), so the output never starts with a tip and never holds two tips
    in a row. *)
Theorem tip_follows_eligible_warning (s : ISysInfoData) (p : Persona)
    (pl : Platform) (k : nat) (t : string) :
  compose s p pl !! k = Some (Tip t) →
  ∃ k' w r, k = S k' ∧ compose s p pl !! k' = Some w ∧
            ruleOf w = Some r ∧ tipEligible r = true.
Proof.
  intros Hk.
  destruct (tipsAttached_lookup _ None (compose_tipsAttached s p pl) k t Hk)
    as (w & r & Hw & Hr & Hel).
  destruct k as [|k']; [done|]. by exists k', w, r.
Qed.

Lemma tip_follows_eligible_warning_witness :
  ∃ k' w r, 1 = S k' ∧
    compose sampleSnapshot PrimaryProduct Darwin !! k' = Some w ∧
    ruleOf w = Some r ∧ tipEligible r = true.
Proof.
  apply (tip_follows_eligible_warning sampleSnapshot PrimaryProduct Darwin 1
           (TIP_DARWIN (os.EOL Darwin))).
  reflexivity.
Defined.

(** *** Comparing personas and platforms *)

(** X11. The legacy product warns about the same things as the primary
    product except Ant and Xcode: the rules of its output are those of
    the primary output with these two removed, and it never prints more
    tips. *)
Theorem legacy_rules_of_primary (s : ISysInfoData) (pl : Platform) :
  rulesIn (compose s LegacyProduct pl) =
    filter (λ r, r ≠ Ant ∧ r ≠ Xcode) (rulesIn (compose s PrimaryProduct pl)) ∧
  (countTips (compose s LegacyProduct pl)
     ≤ countTips (compose s PrimaryProduct pl))%nat.
Proof.
  split.
  - apply (bool_decide_eq_true_1 _). destruct pl; by_flags s.
  - apply Nat.leb_le. destruct pl; by_flags s.
Qed.

(** X12. A platform that is neither Windows nor Darwin gets the Darwin
    output without the tips and without the Xcode warning. *)
Theorem other_platform_of_darwin (s : ISysInfoData) (p : Persona) :
  compose s p Other =
    filter (λ it, isWarning it ∧ ruleOf it ≠ Some Xcode) (compose s p Darwin).
Proof. apply (bool_decide_eq_true_1 _). destruct p; by_flags s. Qed.

(** *** Layout of the texts *)

Lemma compose_wellFormatted s p pl :
  forallb (wellFormatted pl) (compose s p pl) = true.
Proof. destruct p, pl; by_flags s. Qed.

(** X13. Every headline is a single line that starts with [WARNING: ],
    every remediation text ends with the line terminator of the platform,
    and every tip starts with [TIP: ] and ends with that terminator. *)
Theorem texts_well_formatted (s : ISysInfoData) (p : Persona) (pl : Platform)
    (it : Item) :
  it ∈ compose s p pl →
  match it with
  | Warning h d =>
      String.prefix "WARNING: " h = true ∧ contains os.LF h = false ∧
      contains (String (ascii_of_nat 13) EmptyString) h = false ∧
      endsWith (os.EOL pl) d = true
  | Tip t => String.prefix "TIP: " t = true ∧ endsWith (os.EOL pl) t = true
  end.
Proof.
  intros Hin%list_elem_of_In.
  pose proof (compose_wellFormatted s p pl) as Hall.
  rewrite forallb_forall in Hall. specialize (Hall it Hin).
  destruct it as [h d|t]; cbn [wellFormatted] in Hall.
  - rewrite !andb_true_iff, !negb_true_iff in Hall. tauto.
  - by rewrite andb_true_iff in Hall.
Qed.

Lemma texts_well_formatted_witness :
  String.prefix "TIP: " (TIP_WINDOWS (os.EOL Windows)) = true ∧
  endsWith (os.EOL Windows) (TIP_WINDOWS (os.EOL Windows)) = true.
Proof.
  apply (texts_well_formatted bareSnapshot LegacyProduct Windows
           (Tip (TIP_WINDOWS (os.EOL Windows)))).
  apply (bool_decide_unpack _). vm_compute. exact I.
Defined.

(** *** The two procedures as one table *)

(** X14. The two procedures are instances of one table of six rules: the
    output is the concatenation, in table order, of what each rule
    contributes, namely its warning in the wording of the product when
    its gates and its test pass, followed by the tip of the platform when
    the rule is tip-eligible. *)
Theorem procedures_refine_rule_table (s : ISysInfoData) (p : Persona)
    (pl : Platform) :
  compose s p pl =
    concat (map (λ r,
      if RuleTable.appliesTo r p && RuleTable.platformGate r pl
         && RuleTable.predicate r s
      then RuleTable.warningOf r p pl ::
             (if tipEligible r then packageManagerTip pl else [])
      else []) allRules).
Proof. apply compose_eval. Qed.

(** * The whole command *)

Lemma execute_rawLog pl name s :
  Logger.exec (execute pl name s) [] = rawLog s (personaOf name) pl.
Proof. unfold rawLog, execute, personaOf. by destruct (String.eqb name "tns"). Qed.

(** What a run leaves behind, case by case. *)
Lemma execute_cases (w : PostInstall.World) :
  let owner :=
    if PostInstall.patchesOwner w then
      [PostInstall.SetCurrentUserAsOwner (PostInstall.profileDir w)
         (default "" (PostInstall.SUDO_USER w))]
    else [] in
  let log := rawLog (PostInstall.sysInfoData w)
               (personaOf (PostInstall.CLIENT_NAME w)) (PostInstall.host w) in
  PostInstall.execute w [] =
    if PostInstall.patchesOwner w && PostInstall.setCurrentUserAsOwnerThrows w
    then (None, owner)
    else if PostInstall.generateHtmlPagesThrows w
    then (None, owner ++ [PostInstall.GenerateHtmlPages])
    else if PostInstall.getSysInfoThrows w
    then (None, owner ++ [PostInstall.GenerateHtmlPages; PostInstall.GetSysInfo])
    else (if PostInstall.tryExecuteCommandThrows w then None else Some tt,
          owner ++ [PostInstall.GenerateHtmlPages; PostInstall.GetSysInfo]
            ++ map PostInstall.Logged log
            ++ [PostInstall.TryExecuteCommand "autocomplete" []]).
Proof.
  cbv zeta. rewrite <- execute_rawLog.
  unfold PostInstall.execute, PostInstall.patchesOwner.
  destruct (String.eqb (PostInstall.process_platform w) "win32"),
    (toBoolean (PostInstall.SUDO_USER w)),
    (PostInstall.setCurrentUserAsOwnerThrows w),
    (PostInstall.generateHtmlPagesThrows w),
    (PostInstall.getSysInfoThrows w),
    (PostInstall.tryExecuteCommandThrows w); cbn;
    rewrite <- ?app_assoc; reflexivity.
Qed.

Lemma logged_app tr1 tr2 :
  PostInstall.logged (tr1 ++ tr2) = PostInstall.logged tr1 ++ PostInstall.logged tr2.
Proof. apply omap_app. Qed.

Lemma logged_map_Logged log :
  PostInstall.logged (map PostInstall.Logged log) = log.
Proof.
  unfold PostInstall.logged.
  induction log as [|e log IH]; [done|]. cbn. by f_equal.
Qed.

Lemma logged_complete (owner : list PostInstall.Effect) log name args :
  PostInstall.logged owner = [] →
  PostInstall.logged
    (owner ++ [PostInstall.GenerateHtmlPages; PostInstall.GetSysInfo]
       ++ map PostInstall.Logged log
       ++ [PostInstall.TryExecuteCommand name args]) = log.
Proof.
  intros Howner. rewrite !logged_app, logged_map_Logged, Howner.
  cbn. by rewrite app_nil_r.
Qed.

(** Decomposes membership in a trace given by cases. *)
Ltac trace_member H :=
  repeat first
    [ apply elem_of_app in H as [H|H]
    | apply elem_of_cons in H as [H|H]
    | apply elem_of_nil in H; destruct H
    | apply list_elem_of_In, in_map_iff in H as (? & H & _) ];
  try (subst; discriminate).

Lemma patchesOwner_true (w : PostInstall.World) :
  PostInstall.patchesOwner w = true ↔
  PostInstall.process_platform w ≠ "win32" ∧
  ∃ user, PostInstall.SUDO_USER w = Some user ∧ user ≠ "".
Proof.
  unfold PostInstall.patchesOwner.
  rewrite andb_true_iff, negb_true_iff, String.eqb_neq.
  destruct (PostInstall.SUDO_USER w) as [user|]; cbn.
  - rewrite negb_true_iff, String.eqb_neq. split.
    + intros [? ?]. eauto.
    + intros [? (user' & [= <-] & ?)]. done.
  - split; [intros [_ ?]; done | intros [_ (? & ? & _)]; done].
Qed.

(** X15. The owner of the profile directory is changed exactly when the
    process does not run on [win32] and [SUDO_USER] is set to a
    non-empty name; the call then names the profile directory and that
    user, and it is the first thing the command does. *)
Theorem owner_patched_iff (w : PostInstall.World) (path user : string) :
  (PostInstall.SetCurrentUserAsOwner path user ∈ PostInstall.trace w ↔
     PostInstall.process_platform w ≠ "win32" ∧
     PostInstall.SUDO_USER w = Some user ∧ user ≠ "" ∧
     path = PostInstall.profileDir w) ∧
  (∀ k, PostInstall.trace w !! k =
          Some (PostInstall.SetCurrentUserAsOwner path user) → k = 0).
Proof.
  unfold PostInstall.trace. rewrite (execute_cases w). cbv zeta.
  pose proof (patchesOwner_true w) as Hiff.
  destruct (PostInstall.patchesOwner w).
  - destruct (proj1 Hiff eq_refl) as (Hplat & user' & Huser & Hne).
    rewrite Huser. cbn [default].
    assert (∀ rest, (∀ e, e ∈ rest →
              e ≠ PostInstall.SetCurrentUserAsOwner path user) →
      (PostInstall.SetCurrentUserAsOwner path user ∈
         PostInstall.SetCurrentUserAsOwner (PostInstall.profileDir w) user' :: rest ↔
       PostInstall.process_platform w ≠ "win32" ∧ Some user' = Some user ∧
       user ≠ "" ∧ path = PostInstall.profileDir w) ∧
      (∀ k, (PostInstall.SetCurrentUserAsOwner (PostInstall.profileDir w) user'
               :: rest) !! k = Some (PostInstall.SetCurrentUserAsOwner path user) →
            k = 0)) as Hgen.
    { intros rest Hrest. split.
      - rewrite elem_of_cons. split.
        + intros [[= -> ->]|Hin]; [done|]. by apply Hrest in Hin.
        + intros (_ & [= ->] & _ & ->). by left.
      - intros [|k] Hk; [done|]. cbn in Hk.
        apply list_elem_of_lookup_2, Hrest in Hk. done. }
    destruct (_ && _), (PostInstall.generateHtmlPagesThrows w),
      (PostInstall.getSysInfoThrows w); cbn [snd app]; apply Hgen;
      intros e He; trace_member He.
  - assert (∀ tr : list PostInstall.Effect, (∀ e, e ∈ tr →
              e ≠ PostInstall.SetCurrentUserAsOwner path user) →
      (PostInstall.SetCurrentUserAsOwner path user ∈ tr ↔
       PostInstall.process_platform w ≠ "win32" ∧
       PostInstall.SUDO_USER w = Some user ∧
       user ≠ "" ∧ path = PostInstall.profileDir w) ∧
      (∀ k, tr !! k = Some (PostInstall.SetCurrentUserAsOwner path user) →
            k = 0)) as Hgen.
    { intros tr Htr. split.
      - split.
        + intros Hin. by apply Htr in Hin.
        + intros (Hplat & Huser & Hne & _).
          assert (false = true) as Habs by (apply Hiff; eauto). done.
      - intros k Hk. apply list_elem_of_lookup_2, Htr in Hk. done. }
    destruct (PostInstall.generateHtmlPagesThrows w),
      (PostInstall.getSysInfoThrows w); cbn [snd app andb]; apply Hgen;
      intros e He; trace_member He.
Qed.

Lemma owner_patched_iff_witness :
  PostInstall.SetCurrentUserAsOwner
    (PostInstall.profileDir PostInstall.sudoWorld) "dev"
    ∈ PostInstall.trace PostInstall.sudoWorld.
Proof.
  apply (proj1 (owner_patched_iff PostInstall.sudoWorld
                  (PostInstall.profileDir PostInstall.sudoWorld) "dev")).
  repeat split; discriminate.
Defined.

(** X16. When no collaborator throws, the command returns, and its trace
    is: the change of owner if one is due, the generation of the help
    pages, the query for the system information, the log of the procedure
    chosen by [CLIENT_NAME], and last the attempt to run [autocomplete]
    with no arguments.  The items logged are those of [compose] for the
    persona the client name stands for. *)
Theorem quiet_run (w : PostInstall.World) :
  PostInstall.quiet w →
  PostInstall.returns w = true ∧
  PostInstall.trace w =
    (if PostInstall.patchesOwner w then
       [PostInstall.SetCurrentUserAsOwner (PostInstall.profileDir w)
          (default "" (PostInstall.SUDO_USER w))]
     else [])
    ++ [PostInstall.GenerateHtmlPages; PostInstall.GetSysInfo]
    ++ map PostInstall.Logged
         (rawLog (PostInstall.sysInfoData w)
            (personaOf (PostInstall.CLIENT_NAME w)) (PostInstall.host w))
    ++ [PostInstall.TryExecuteCommand "autocomplete" []] ∧
  items (PostInstall.logged (PostInstall.trace w)) =
    compose (PostInstall.sysInfoData w)
      (personaOf (PostInstall.CLIENT_NAME w)) (PostInstall.host w).
Proof.
  intros (Howner & Hhelp & Hinfo & Hauto).
  unfold PostInstall.returns, PostInstall.trace.
  rewrite (execute_cases w). cbv zeta.
  rewrite Howner, Hhelp, Hinfo, Hauto, andb_false_r. cbn [fst snd].
  split; [done|]. split; [done|].
  rewrite logged_complete, compose_rawLog; [done|].
  by destruct (PostInstall.patchesOwner w).
Qed.

Lemma quiet_run_witness :
  PostInstall.quiet PostInstall.sudoWorld ∧
  PostInstall.returns PostInstall.sudoWorld = true.
Proof.
  assert (PostInstall.quiet PostInstall.sudoWorld) as Hquiet
    by (repeat split; reflexivity).
  split; [exact Hquiet|].
  exact (proj1 (quiet_run PostInstall.sudoWorld Hquiet)).
Defined.

(** X17. When the help service or the system information provider
    throws, the command throws as well, nothing has been logged, and the
    attempt to run [autocomplete] is never made. *)
Theorem early_failure_aborts (w : PostInstall.World) :
  PostInstall.generateHtmlPagesThrows w = true ∨
  PostInstall.getSysInfoThrows w = true →
  PostInstall.returns w = false ∧
  PostInstall.logged (PostInstall.trace w) = [] ∧
  ∀ name args,
    PostInstall.TryExecuteCommand name args ∉ PostInstall.trace w.
Proof.
  intros Hthrows.
  unfold PostInstall.returns, PostInstall.trace.
  rewrite (execute_cases w). cbv zeta.
  destruct (PostInstall.patchesOwner w),
    (PostInstall.setCurrentUserAsOwnerThrows w),
    (PostInstall.generateHtmlPagesThrows w),
    (PostInstall.getSysInfoThrows w);
    try (by destruct Hthrows);
    cbn; (split; [done|]); (split; [done|]);
    intros name args Hin; trace_member Hin.
Qed.

Lemma early_failure_aborts_witness :
  PostInstall.returns PostInstall.brokenHelpWorld = false ∧
  PostInstall.logged (PostInstall.trace PostInstall.brokenHelpWorld) = [].
Proof.
  destruct (early_failure_aborts PostInstall.brokenHelpWorld
              (or_introl eq_refl)) as (Hret & Hlog & _).
  split; [exact Hret | exact Hlog].
Defined.

(** X18. The command returns exactly when no collaborator it calls
    throws; a throwing file system only matters when the owner is to be
    changed.  When only the attempt to run [autocomplete] throws, all
    warnings have been logged before. *)
Theorem returns_iff (w : PostInstall.World) :
  (PostInstall.returns w = true ↔
     (PostInstall.patchesOwner w = true →
        PostInstall.setCurrentUserAsOwnerThrows w = false) ∧
     PostInstall.generateHtmlPagesThrows w = false ∧
     PostInstall.getSysInfoThrows w = false ∧
     PostInstall.tryExecuteCommandThrows w = false) ∧
  (PostInstall.returns w = false →
   PostInstall.TryExecuteCommand "autocomplete" [] ∈ PostInstall.trace w →
   PostInstall.tryExecuteCommandThrows w = true ∧
   PostInstall.logged (PostInstall.trace w) =
     rawLog (PostInstall.sysInfoData w)
       (personaOf (PostInstall.CLIENT_NAME w)) (PostInstall.host w)).
Proof.
  unfold PostInstall.returns, PostInstall.trace.
  rewrite (execute_cases w). cbv zeta. split.
  - destruct (PostInstall.patchesOwner w),
      (PostInstall.setCurrentUserAsOwnerThrows w),
      (PostInstall.generateHtmlPagesThrows w),
      (PostInstall.getSysInfoThrows w),
      (PostInstall.tryExecuteCommandThrows w); cbn; intuition congruence.
  - destruct (PostInstall.patchesOwner w) eqn:Hpatch,
      (PostInstall.setCurrentUserAsOwnerThrows w),
      (PostInstall.generateHtmlPagesThrows w),
      (PostInstall.getSysInfoThrows w),
      (PostInstall.tryExecuteCommandThrows w); cbn [andb fst snd];
      intros Hret Hin; try discriminate Hret; try (by trace_member Hin);
      (split; [done|]);
      by apply logged_complete.
Qed.

Lemma returns_iff_witness :
  PostInstall.returns PostInstall.sudoWorld = true.
Proof.
  apply (proj1 (returns_iff PostInstall.sudoWorld)).
  repeat split; reflexivity.
Defined.

(** X19. Only the client name [tns] selects the primary product: under
    any other client name the command logs neither the Ant nor the Xcode
    warning, whatever is missing, on every host and however the
    collaborators behave. *)
Theorem other_client_never_ant_nor_xcode (w : PostInstall.World) :
  PostInstall.CLIENT_NAME w ≠ "tns" →
  emits Ant (items (PostInstall.logged (PostInstall.trace w))) = false ∧
  emits Xcode (items (PostInstall.logged (PostInstall.trace w))) = false.
Proof.
  intros Hname%String.eqb_neq.
  unfold PostInstall.trace. rewrite (execute_cases w). cbv zeta.
  unfold personaOf. rewrite Hname.
  destruct (PostInstall.patchesOwner w),
    (PostInstall.setCurrentUserAsOwnerThrows w),
    (PostInstall.generateHtmlPagesThrows w),
    (PostInstall.getSysInfoThrows w); cbn [andb fst snd]; try done;
    rewrite logged_complete by done;
    by rewrite <- compose_rawLog, !emits_fires.
Qed.

Lemma other_client_never_ant_nor_xcode_witness :
  emits Ant (items (PostInstall.logged (PostInstall.trace
    {| PostInstall.process_platform := "win32"; PostInstall.SUDO_USER := None;
       PostInstall.profileDir := "C:\Users\dev\AppData\Roaming\.appbuilder-cli";
       PostInstall.CLIENT_NAME := "appbuilder"; PostInstall.host := Windows;
       PostInstall.sysInfoData := bareSnapshot;
       PostInstall.setCurrentUserAsOwnerThrows := false;
       PostInstall.generateHtmlPagesThrows := false;
       PostInstall.getSysInfoThrows := false;
       PostInstall.tryExecuteCommandThrows := false |}))) = false.
Proof.
  apply other_client_never_ant_nor_xcode. discriminate.
Defined.

(** * The kinds of analytics data *)

(** X20. The four kinds of analytics data stand for four different
    strings: the kind of a message can be told from its tag. *)
Theorem trackingTypeValue_injective (t1 t2 : TrackingTypes) :
  trackingTypeValue t1 = trackingTypeValue t2 → t1 = t2.
Proof. destruct t1, t2; cbn; intros Heq; (reflexivity || discriminate Heq). Qed.

Lemma trackingTypeValue_injective_witness : Feature = Feature.
Proof. apply trackingTypeValue_injective. reflexivity. Defined.
